(** * Translation gateway (app.py): a shallow embedding and its contract

    The Flask module [app.py] exposes two views, [translate_text]
    (POST /translate) and [ping] (GET /ping).  The views are embedded as
    computations in a small exception-and-trace monad: the trace records the
    outbound calls made through [requests.post] and the lines written by
    [print]; the upstream provider is an oracle stored in the world. *)

From Stdlib Require Import ZArith Floats.
From stdpp Require Import gmap strings list pretty.

Open Scope string_scope.
Open Scope Z_scope.

(** ** Python values and exceptions *)

Module Py.

(** The values [request.get_json()] and [response.json()] can produce, which
    are also the values the view stores in its dictionaries. *)
#[warnings="-register-all"]
Inductive pyval : Type :=
| PyNone
| PyBool (b : bool)
| PyInt (z : Z)
| PyFloat (f : float)
| PyStr (s : string)
| PyList (l : list pyval)
| PyDict (m : gmap string pyval).

(** Exception classes.  [Requests _] are the classes of
    [requests.exceptions], all of which derive from [RequestException]; the
    others are built-in classes that derive from [Exception] only. *)
Inductive requests_exc : Type :=
| RequestException
| HTTPError
| ConnectionError
| Timeout
| TooManyRedirects
| InvalidJSONError.

Inductive exc_class : Type :=
| Requests (c : requests_exc)
| AttributeError
| IndexError
| KeyError
| TypeError
| ValueError.

Record exc : Type := Exc { exc_cls : exc_class; exc_msg : string }.

(** [isinstance(e, requests.exceptions.RequestException)] *)
Definition isinstance_RequestException (e : exc) : bool :=
  match exc_cls e with
  | Requests _ => true
  | _ => false
  end.

(** [str(e)] *)
Definition str (e : exc) : string := exc_msg e.

(** [bool(v)]: Python's truth value of a JSON-born value. *)
Definition truthy (v : pyval) : bool :=
  match v with
  | PyNone => false
  | PyBool b => b
  | PyInt z => negb (z =? 0)
  | PyFloat f => negb (PrimFloat.eqb f 0%float)
  | PyStr s => negb (String.eqb s "")
  | PyList l => match l with [] => false | _ :: _ => true end
  | PyDict m => negb (bool_decide (m = ∅))
  end.

(** [all(l)] *)
Definition all (l : list pyval) : bool := forallb truthy l.

(** The name Python prints for the type of a value. *)
Definition type_name (v : pyval) : string :=
  match v with
  | PyNone => "NoneType"
  | PyBool _ => "bool"
  | PyInt _ => "int"
  | PyFloat _ => "float"
  | PyStr _ => "str"
  | PyList _ => "list"
  | PyDict _ => "dict"
  end.

(** [v.get(k)]: only dictionaries have the method. *)
Definition get (v : pyval) (k : string) : exc + pyval :=
  match v with
  | PyDict m => inr (default PyNone (m !! k))
  | _ => inl (Exc AttributeError
                ("'" +:+ type_name v +:+ "' object has no attribute 'get'"))
  end.

(** Position of index [i] in a sequence of length [n], negative indices
    counting from the end. *)
Definition seq_index (n : nat) (i : Z) : option nat :=
  let j := if i <? 0 then i + Z.of_nat n else i in
  if (0 <=? j) && (j <? Z.of_nat n) then Some (Z.to_nat j) else None.

Definition string_nth (s : string) (n : nat) : option string :=
  match String.get n s with
  | Some c => Some (String c EmptyString)
  | None => None
  end.

(** [v[i]] for an integer [i]. *)
Definition getitem_int (v : pyval) (i : Z) : exc + pyval :=
  match v with
  | PyList l =>
      match seq_index (length l) i ≫= (l !!.) with
      | Some x => inr x
      | None => inl (Exc IndexError "list index out of range")
      end
  | PyStr s =>
      match seq_index (String.length s) i ≫= string_nth s with
      | Some x => inr (PyStr x)
      | None => inl (Exc IndexError "string index out of range")
      end
  | PyDict _ => inl (Exc KeyError (pretty i))
  | _ => inl (Exc TypeError
                ("'" +:+ type_name v +:+ "' object is not subscriptable"))
  end.

(** [v[k]] for a string [k]. *)
Definition getitem_str (v : pyval) (k : string) : exc + pyval :=
  match v with
  | PyDict m =>
      match m !! k with
      | Some x => inr x
      | None => inl (Exc KeyError ("'" +:+ k +:+ "'"))
      end
  | PyList _ =>
      inl (Exc TypeError "list indices must be integers or slices, not str")
  | PyStr _ =>
      inl (Exc TypeError "string indices must be integers, not 'str'")
  | _ => inl (Exc TypeError
                ("'" +:+ type_name v +:+ "' object is not subscriptable"))
  end.

End Py.

Import Py.

(** ** The part of [requests] and [flask] the views use *)

Module Requests.

(** One call of [requests.post(url, params=..., headers=..., json=...)]. *)
Record call : Type := Call {
  call_method : string;
  call_url : string;
  call_params : gmap string pyval;
  call_headers : gmap string pyval;
  call_json : pyval
}.

(** A [requests.Response]: the status line, the final URL, and what
    [.json()] gives on its body. *)
Record response : Type := Response {
  status_code : Z;
  reason : string;
  url : string;
  json_result : exc + pyval
}.

(** [Response.raise_for_status]: an [HTTPError] for a 4xx or 5xx status,
    nothing otherwise. *)
Definition raise_for_status (r : response) : exc + unit :=
  if (400 <=? status_code r) && (status_code r <? 500) then
    inl (Exc (Requests HTTPError)
           (pretty (status_code r) +:+ " Client Error: " +:+ reason r
              +:+ " for url: " +:+ url r))
  else if (500 <=? status_code r) && (status_code r <? 600) then
    inl (Exc (Requests HTTPError)
           (pretty (status_code r) +:+ " Server Error: " +:+ reason r
              +:+ " for url: " +:+ url r))
  else inr ().

(** [Response.json] *)
Definition json (r : response) : exc + pyval := json_result r.

End Requests.

Module Flask.

(** What a view hands back to Flask: a status and a JSON body. *)
Record response : Type := Response { status : Z; body : pyval }.

(** [jsonify(v)]: a 200 response carrying [v]. *)
Definition jsonify (v : pyval) : response := Response 200 v.

(** [return r, code]: the view's tuple form, which sets the status. *)
Definition with_status (r : response) (code : Z) : response :=
  Response code (body r).

End Flask.

(** ** Effects: exceptions, outbound calls and standard output *)

Module Eff.

(** The world a view runs in.  [network] is the upstream provider: what
    [requests.post] gives for a call, an exception or a response. *)
Record world : Type := World {
  network : Requests.call → exc + Requests.response;
  sent : list Requests.call;
  stdout : list string
}.

Inductive outcome (A : Type) : Type :=
| Return (a : A)
| Raise (e : exc).
Arguments Return {A} a.
Arguments Raise {A} e.

Definition eff (A : Type) : Type := world → outcome A * world.

Definition ret {A} (a : A) : eff A := λ w, (Return a, w).

Definition bind {A B} (m : eff A) (k : A → eff B) : eff B :=
  λ w, match m w with
       | (Return a, w') => k a w'
       | (Raise e, w') => (Raise e, w')
       end.

(** An expression that either raises or has a value. *)
Definition lift {A} (r : exc + A) : eff A :=
  λ w, match r with
       | inl e => (Raise e, w)
       | inr a => (Return a, w)
       end.

(** [try: m  except C as e: h e], with [C] given by its [isinstance] test. *)
Definition try_except {A} (m : eff A) (catches : exc → bool)
    (h : exc → eff A) : eff A :=
  λ w, match m w with
       | (Return a, w') => (Return a, w')
       | (Raise e, w') => if catches e then h e w' else (Raise e, w')
       end.

(** [requests.post]: the call is recorded in [sent], whether the provider
    answers it or the library raises. *)
Definition post (c : Requests.call) : eff Requests.response :=
  λ w, match network w c with
       | inl e => (Raise e, World (network w) (sent w ++ [c]) (stdout w))
       | inr r => (Return r, World (network w) (sent w ++ [c]) (stdout w))
       end.

(** [print(s)] *)
Definition print (s : string) : eff unit :=
  λ w, (Return (), World (network w) (sent w) (stdout w ++ [s])).

End Eff.

Import Eff.

#[global] Instance eff_ret : MRet eff := @Eff.ret.
#[global] Instance eff_bind : MBind eff := λ A B k m, Eff.bind m k.

(** ** The module [app.py] *)

Module App.

(** [os.getenv(k)] and [os.getenv(k, d)] on the process environment. *)
Definition getenv (environ : gmap string string) (k : string) : pyval :=
  match environ !! k with
  | Some v => PyStr v
  | None => PyNone
  end.

Definition getenv_default (environ : gmap string string) (k d : string)
    : pyval :=
  match environ !! k with
  | Some v => PyStr v
  | None => PyStr d
  end.

(** The two module-level settings, read once when the module is loaded. *)
Record config : Type := Config { API_KEY : pyval; REGION : pyval }.

Definition load_config (environ : gmap string string) : config :=
  {| API_KEY := getenv environ "MICROSOFT_TRANSLATE_API_KEY";
     REGION := getenv_default environ "MICROSOFT_TRANSLATE_REGION" "ukwest" |}.

Definition endpoint : string :=
  "https://api.cognitive.microsofttranslator.com/translate".

(** The view of POST /translate; [data] is what [request.get_json()] gave.
    An exception that leaves the view is not answered by the view: the run
    ends in [Raise]. *)
Definition translate_text (cfg : config) (data : pyval)
    : eff Flask.response :=
  source_lang ← lift (Py.get data "source_lang");
  target_lang ← lift (Py.get data "target_lang");
  text ← lift (Py.get data "text");
  if negb (Py.all [source_lang; target_lang; text]) then
    mret (Flask.with_status
            (Flask.jsonify
               (PyDict {[ "error" := PyStr "Missing required fields" ]}))
            400)
  else
    let params : gmap string pyval :=
      {[ "api-version" := PyStr "3.0";
         "from" := source_lang;
         "to" := target_lang ]} in
    let headers : gmap string pyval :=
      {[ "Ocp-Apim-Subscription-Key" := API_KEY cfg;
         "Ocp-Apim-Subscription-Region" := REGION cfg;
         "Content-type" := PyStr "application/json" ]} in
    let body := PyList [PyDict {[ "text" := text ]}] in
    try_except
      (response ← post (Requests.Call "POST" endpoint params headers body);
       _ ← lift (Requests.raise_for_status response);
       payload ← lift (Requests.json response);
       first ← lift (getitem_int payload 0);
       translations ← lift (getitem_str first "translations");
       result ← lift (getitem_int translations 0);
       translation ← lift (getitem_str result "text");
       mret (Flask.jsonify
               (PyDict {[ "translated_text" := translation ]})))
      isinstance_RequestException
      (λ e,
         _ ← print (str e);
         mret (Flask.with_status
                 (Flask.jsonify
                    (PyDict {[ "error" := PyStr "Translation failed" ]}))
                 500)).

(** The view of GET /ping. *)
Definition ping : eff Flask.response :=
  mret (Flask.jsonify
          (PyDict {[ "message" := PyStr "Flask backend is working!" ]})).

End App.

Import App.

(** ** Vocabulary of the contract *)

(** The two error responses and the success response of /translate. *)
Definition missing_fields_response : Flask.response :=
  Flask.Response 400 (PyDict {[ "error" := PyStr "Missing required fields" ]}).

Definition translation_failed_response : Flask.response :=
  Flask.Response 500 (PyDict {[ "error" := PyStr "Translation failed" ]}).

Definition translated_response (t : pyval) : Flask.response :=
  Flask.Response 200 (PyDict {[ "translated_text" := t ]}).

(** The value of a field of a request object, [None] when absent. *)
Definition field (m : gmap string pyval) (k : string) : pyval :=
  default PyNone (m !! k).

(** A request body passes validation when it is an object whose three
    fields are all truthy. *)
Definition validates (data : pyval) : bool :=
  match data with
  | PyDict m =>
      Py.all [field m "source_lang"; field m "target_lang"; field m "text"]
  | _ => false
  end.

(** The provider call the contract describes for a language pair and a
    text. *)
Definition upstream_call (cfg : config) (source_lang target_lang text : pyval)
    : Requests.call :=
  {| Requests.call_method := "POST";
     Requests.call_url :=
       "https://api.cognitive.microsofttranslator.com/translate";
     Requests.call_params :=
       {[ "api-version" := PyStr "3.0";
          "from" := source_lang;
          "to" := target_lang ]};
     Requests.call_headers :=
       {[ "Ocp-Apim-Subscription-Key" := API_KEY cfg;
          "Ocp-Apim-Subscription-Region" := REGION cfg;
          "Content-type" := PyStr "application/json" ]};
     Requests.call_json := PyList [PyDict {[ "text" := text ]}] |}.

Definition call_of (cfg : config) (m : gmap string pyval) : Requests.call :=
  upstream_call cfg (field m "source_lang") (field m "target_lang")
    (field m "text").

(** [payload[0]["translations"][0]["text"]] as one expression. *)
Definition first_translation (payload : pyval) : exc + pyval :=
  match getitem_int payload 0 with
  | inl e => inl e
  | inr first =>
      match getitem_str first "translations" with
      | inl e => inl e
      | inr translations =>
          match getitem_int translations 0 with
          | inl e => inl e
          | inr result => getitem_str result "text"
          end
      end
  end.

(** What the body of the [try] block computes from the provider's answer. *)
Definition answer (r : exc + Requests.response) : exc + pyval :=
  match r with
  | inl e => inl e
  | inr resp =>
      match Requests.raise_for_status resp with
      | inl e => inl e
      | inr _ =>
          match Requests.json resp with
          | inl e => inl e
          | inr payload => first_translation payload
          end
      end
  end.

(** An upstream failure that reaches the view as a [RequestException]: the
    transport raised one, the status is 4xx or 5xx, or [.json()] raised
    one. *)
Inductive upstream_failure : exc + Requests.response → exc → Prop :=
| failure_transport e :
    isinstance_RequestException e = true →
    upstream_failure (inl e) e
| failure_status resp e :
    400 ≤ Requests.status_code resp < 600 →
    Requests.raise_for_status resp = inl e →
    upstream_failure (inr resp) e
| failure_body resp e :
    ¬ (400 ≤ Requests.status_code resp < 600) →
    Requests.json_result resp = inl e →
    isinstance_RequestException e = true →
    upstream_failure (inr resp) e.

(** Shapes of a response body. *)
Definition has_field (r : Flask.response) (k : string) : bool :=
  match Flask.body r with
  | PyDict m => bool_decide (is_Some (m !! k))
  | _ => false
  end.

Definition success_shape (r : Flask.response) : Prop :=
  ∃ t, Flask.body r = PyDict {[ "translated_text" := t ]}.

Definition error_shape (r : Flask.response) : Prop :=
  ∃ msg, Flask.body r = PyDict {[ "error" := PyStr msg ]}.

(** The world after one call went out, and after a line was printed. *)
Definition after_call (w : world) (c : Requests.call) : world :=
  World (network w) (sent w ++ [c]) (stdout w).

Definition after_print (w : world) (s : string) : world :=
  World (network w) (sent w) (stdout w ++ [s]).

(** The calls a request is expected to cause: one for a request that passes
    validation, none otherwise. *)
Definition expected_calls (cfg : config) (data : pyval)
    : list Requests.call :=
  match data with
  | PyDict m => if validates data then [call_of cfg m] else []
  | _ => []
  end.

(** A field of a request object is missing, or is the empty string. *)
Definition missing_or_empty (m : gmap string pyval) (k : string) : Prop :=
  m !! k = None ∨ m !! k = Some (PyStr "").

(** A field of a request object is missing, or holds a falsy value. *)
Definition missing_or_falsy (m : gmap string pyval) (k : string) : Prop :=
  m !! k = None ∨ ∃ v, m !! k = Some v ∧ truthy v = false.

(** The three keys the view reads from the request object. *)
Definition required_keys : list string :=
  ["source_lang"; "target_lang"; "text"].

(** ** Sample inputs *)

Module Sample.

Definition cfg : config :=
  load_config {[ "MICROSOFT_TRANSLATE_API_KEY" := "secret" ]}.

Definition hello : gmap string pyval :=
  {[ "source_lang" := PyStr "en";
     "target_lang" := PyStr "fr";
     "text" := PyStr "Hello" ]}.

Definition no_target : gmap string pyval :=
  {[ "source_lang" := PyStr "en"; "text" := PyStr "Hello" ]}.

Definition zero_text : gmap string pyval :=
  {[ "source_lang" := PyStr "en";
     "target_lang" := PyStr "fr";
     "text" := PyInt 0 ]}.

Definition odd_codes : gmap string pyval :=
  {[ "source_lang" := PyStr "not a language";
     "target_lang" := PyStr "??";
     "text" := PyStr "Hello" ]}.

Definition bonjour : pyval :=
  PyList [PyDict {[ "translations" := PyList [PyDict {[ "text" := PyStr "Bonjour" ]}] ]}].

Definition ok (status : Z) (payload : pyval) : Requests.response :=
  Requests.Response status "" endpoint (inr payload).

(** A world whose provider gives the same answer to every call. *)
Definition world_of (r : exc + Requests.response) : world :=
  World (λ _, r) [] [].

Definition refused : exc :=
  Exc (Requests ConnectionError) "Connection refused".

Definition unavailable : Requests.response :=
  Requests.Response 503 "Service Unavailable" endpoint
    (inl (Exc (Requests InvalidJSONError) "Expecting value")).

Definition unauthorized : Requests.response :=
  Requests.Response 401 "Unauthorized" endpoint
    (inr (PyDict {[ "error" := PyStr "bad key" ]})).

End Sample.

(** Further sample inputs: requests with more or other than three strings,
    and answers of the wrong shape. *)
Module Edge.

Definition hello_with_note : gmap string pyval :=
  <[ "note" := PyStr "ignored" ]> Sample.hello.

Definition untyped : gmap string pyval :=
  {[ "source_lang" := PyList [PyStr "en"];
     "target_lang" := PyBool true;
     "text" := PyInt 5 ]}.

Definition no_key_environ : gmap string string :=
  {[ "MICROSOFT_TRANSLATE_REGION" := "" ]}.

Definition not_json : Requests.response :=
  Requests.Response 200 "OK" endpoint
    (inl (Exc ValueError "Expecting value: line 1 column 1 (char 0)")).

(** The URL [requests] reports for the call made for [Sample.hello]. *)
Definition hello_url : string :=
  "https://api.cognitive.microsofttranslator.com/translate"
    +:+ "?api-version=3.0&from=en&to=fr".

Definition unauthorized_hello : Requests.response :=
  Requests.Response 401 "Unauthorized" hello_url
    (inr (PyDict {[ "error" := PyStr "bad key" ]})).

End Edge.

(** ** Running the views *)

Lemma get_dict (m : gmap string pyval) (k : string) :
  Py.get (PyDict m) k = inr (field m k).
Proof. reflexivity. Qed.

Lemma get_not_dict (data : pyval) (k : string) :
  (∀ m, data ≠ PyDict m) →
  ∃ e, Py.get data k = inl e ∧ exc_cls e = AttributeError.
Proof.
  intros Hnd. destruct data; try (eexists; split; reflexivity).
  by destruct (Hnd m).
Qed.

(** A request that is not an object stops at the first [.get]. *)
Lemma translate_text_not_dict (cfg : config) (data : pyval) (w : world) :
  (∀ m, data ≠ PyDict m) →
  ∃ e, translate_text cfg data w = (Raise e, w) ∧ exc_cls e = AttributeError.
Proof.
  intros Hnd. destruct (get_not_dict data "source_lang" Hnd) as (e & He & Hc).
  exists e. split; [|done].
  unfold translate_text, mbind, eff_bind, Eff.bind. by rewrite He.
Qed.

(** Rewrites the run of the view on a request that is visibly not an
    object into the raised [AttributeError]. *)
Ltac stop_at_get cfg w :=
  match goal with
  | |- context [translate_text cfg ?d w] =>
      let e := fresh "e" in
      let Hrun := fresh "Hrun" in
      destruct (translate_text_not_dict cfg d w) as (e & Hrun & Hcls);
      [discriminate | rewrite Hrun; cbn [fst snd]]
  end.

(** A request object that fails the truth test is answered at once. *)
Lemma translate_text_rejected (cfg : config) (m : gmap string pyval)
    (w : world) :
  validates (PyDict m) = false →
  translate_text cfg (PyDict m) w = (Return missing_fields_response, w).
Proof.
  intros Hv. unfold translate_text, mbind, eff_bind, Eff.bind.
  rewrite !get_dict. cbn [lift]. unfold validates in Hv. by rewrite Hv.
Qed.

(** A request object that passes the truth test makes one call, and the
    answer decides the rest. *)
Lemma translate_text_accepted (cfg : config) (m : gmap string pyval)
    (w : world) :
  validates (PyDict m) = true →
  translate_text cfg (PyDict m) w =
    let w1 := after_call w (call_of cfg m) in
    match answer (network w (call_of cfg m)) with
    | inr t => (Return (translated_response t), w1)
    | inl e =>
        if isinstance_RequestException e
        then (Return translation_failed_response, after_print w1 (str e))
        else (Raise e, w1)
    end.
Proof.
  intros Hv. unfold translate_text, mbind, eff_bind, Eff.bind.
  rewrite !get_dict. cbn [lift]. unfold validates in Hv. rewrite Hv.
  cbn [negb].
  unfold try_except, post, answer, first_translation, call_of, upstream_call,
    endpoint, Requests.json.
  cbn zeta.
  destruct (network w _) as [e|resp]; [done|].
  destruct (Requests.raise_for_status resp) as [e|[]]; cbn [lift]; [done|].
  destruct (Requests.json_result resp) as [e|payload]; cbn [lift]; [done|].
  destruct (getitem_int payload 0) as [e|first]; cbn [lift]; [done|].
  destruct (getitem_str first "translations") as [e|ts]; cbn [lift]; [done|].
  destruct (getitem_int ts 0) as [e|result]; cbn [lift]; [done|].
  by destruct (getitem_str result "text") as [e|t]; cbn [lift].
Qed.

Lemma answer_failure (r : exc + Requests.response) (e : exc) :
  upstream_failure r e →
  answer r = inl e ∧ isinstance_RequestException e = true.
Proof.
  destruct 1 as [e He | resp e Hst Hr | resp e Hst Hj He]; simpl.
  - done.
  - rewrite Hr. split; [done|].
    unfold Requests.raise_for_status in Hr.
    repeat case_match; by simplify_eq.
  - unfold Requests.raise_for_status, Requests.json.
    repeat case_match; try lia; by rewrite ?Hj.
Qed.

Lemma translate_text_failure (cfg : config) (m : gmap string pyval)
    (w : world) (e : exc) :
  validates (PyDict m) = true →
  upstream_failure (network w (call_of cfg m)) e →
  translate_text cfg (PyDict m) w =
    (Return translation_failed_response,
     after_print (after_call w (call_of cfg m)) (str e)).
Proof.
  intros Hv Hf. rewrite translate_text_accepted by done.
  destruct (answer_failure _ _ Hf) as [-> ->]. done.
Qed.

(** The three outcomes of an accepted request, read off the response. *)
Lemma translate_text_accepted_cases (cfg : config) (m : gmap string pyval)
    (w : world) :
  validates (PyDict m) = true →
  (∃ t, (translate_text cfg (PyDict m) w).1 = Return (translated_response t))
  ∨ (translate_text cfg (PyDict m) w).1 = Return translation_failed_response
  ∨ (∃ e, (translate_text cfg (PyDict m) w).1 = Raise e
          ∧ isinstance_RequestException e = false).
Proof.
  intros Hv. rewrite translate_text_accepted by done. cbn zeta.
  destruct (answer _) as [e|t]; [|by eauto].
  destruct (isinstance_RequestException e) eqn:He; by eauto.
Qed.

Lemma translate_text_sent (cfg : config) (m : gmap string pyval) (w : world) :
  validates (PyDict m) = true →
  sent (translate_text cfg (PyDict m) w).2 = (sent w ++ [call_of cfg m])%list.
Proof.
  intros Hv. rewrite translate_text_accepted by done. cbn zeta.
  destruct (answer _) as [e|t]; [|done].
  by destruct (isinstance_RequestException e).
Qed.

Lemma falsy_field_rejects (m : gmap string pyval) (k : string) :
  k ∈ ["source_lang"; "target_lang"; "text"] →
  truthy (field m k) = false →
  validates (PyDict m) = false.
Proof.
  intros Hk Hf. unfold validates, Py.all. cbn [forallb].
  repeat (apply elem_of_cons in Hk as [->|Hk]);
    [| | |by apply elem_of_nil in Hk]; rewrite Hf;
    by rewrite ?andb_false_r.
Qed.

Lemma nonempty_string_truthy (s : string) : s ≠ "" → truthy (PyStr s) = true.
Proof. intros Hs. by destruct s. Qed.

Lemma shapes_of_translated (t : pyval) :
  success_shape (translated_response t)
  ∧ ¬ error_shape (translated_response t)
  ∧ has_field (translated_response t) "translated_text" = true
  ∧ has_field (translated_response t) "error" = false.
Proof.
  split_and!; [by exists t| |done..].
  intros [msg Hm].
  by apply (f_equal (λ v, if v is PyDict d then d !! "error" else None)) in Hm.
Qed.

Lemma shapes_of_error (code : Z) (msg : string) :
  let r := Flask.Response code (PyDict {[ "error" := PyStr msg ]}) in
  error_shape r ∧ ¬ success_shape r
  ∧ has_field r "error" = true ∧ has_field r "translated_text" = false.
Proof.
  split_and!; [by exists msg| |done..].
  intros [t Ht].
  by apply (f_equal (λ v, if v is PyDict d then d !! "error" else None)) in Ht.
Qed.

Lemma raise_for_status_passes (resp : Requests.response) :
  ¬ (400 ≤ Requests.status_code resp < 600) →
  Requests.raise_for_status resp = inr ().
Proof.
  intros Hst. unfold Requests.raise_for_status.
  repeat case_match; try done; lia.
Qed.

Lemma first_translation_shape (first result : gmap string pyval)
    (rest rest' : list pyval) (T : pyval) :
  first !! "translations" = Some (PyList (PyDict result :: rest')) →
  result !! "text" = Some T →
  first_translation (PyList (PyDict first :: rest)) = inr T.
Proof.
  intros Hfirst Hres. unfold first_translation.
  cbn [getitem_int seq_index length]. simpl.
  rewrite Hfirst. simpl. by rewrite Hres.
Qed.

(** Python's falsy values other than the empty string. *)
Example falsy_values :
  truthy PyNone = false ∧ truthy (PyInt 0) = false
  ∧ truthy (PyBool false) = false ∧ truthy (PyList []) = false
  ∧ truthy (PyDict ∅) = false ∧ truthy (PyFloat 0%float) = false.
Proof. by vm_compute. Qed.

(** ** The contract of /translate and /ping *)

(** C1, as stated, fails: a 2xx answer whose payload is the empty list makes
    [payload[0]] raise [IndexError], and a payload whose first element has no
    ['translations'] makes the lookup raise [KeyError]; neither is a
    [RequestException], so both leave [translate_text] uncaught and no 500
    body is returned.  A status outside 2xx that [raise_for_status] lets
    through (here 300) with a well-formed payload is answered with 200. *)
Lemma C1_malformed_payload_uncaught :
  (translate_text Sample.cfg (PyDict Sample.hello)
     (Sample.world_of (inr (Sample.ok 200 (PyList []))))).1
    = Raise (Exc IndexError "list index out of range")
  ∧ (translate_text Sample.cfg (PyDict Sample.hello)
       (Sample.world_of (inr (Sample.ok 200 (PyList [])))) ).1
    ≠ Return translation_failed_response
  ∧ (translate_text Sample.cfg (PyDict Sample.hello)
       (Sample.world_of (inr (Sample.ok 200 (PyList [PyDict ∅]))))).1
    = Raise (Exc KeyError "'translations'")
  ∧ (translate_text Sample.cfg (PyDict Sample.hello)
       (Sample.world_of (inr (Sample.ok 300 Sample.bonjour)))).1
    = Return (translated_response (PyStr "Bonjour")).
Proof. split_and!; [by vm_compute..]. Qed.

(** C1 (amended): for every request that passes validation, an upstream
    failure that reaches the view as a [RequestException] -- raised by the
    transport, raised by [raise_for_status] for a 4xx or 5xx status, or
    raised by [.json()] -- is caught and answered with HTTP 500 and the body
    [{"error": "Translation failed"}]. *)
Theorem C1_request_exception_mapped_to_500 (cfg : config)
    (m : gmap string pyval) (w : world) (e : exc) :
  validates (PyDict m) = true →
  upstream_failure (network w (call_of cfg m)) e →
  (translate_text cfg (PyDict m) w).1 = Return translation_failed_response
  ∧ Flask.status translation_failed_response = 500
  ∧ Flask.body translation_failed_response
    = PyDict {[ "error" := PyStr "Translation failed" ]}.
Proof.
  intros Hv Hf. by rewrite (translate_text_failure cfg m w e).
Qed.

Lemma C1_request_exception_mapped_to_500_witness :
  (translate_text Sample.cfg (PyDict Sample.hello)
     (Sample.world_of (inl Sample.refused))).1
    = Return translation_failed_response
  ∧ (translate_text Sample.cfg (PyDict Sample.hello)
       (Sample.world_of (inr Sample.unavailable))).1
    = Return translation_failed_response.
Proof.
  split.
  - apply (C1_request_exception_mapped_to_500 Sample.cfg Sample.hello
             (Sample.world_of (inl Sample.refused)) Sample.refused).
    + vm_compute. reflexivity.
    + apply failure_transport. reflexivity.
  - eapply (C1_request_exception_mapped_to_500 Sample.cfg Sample.hello
              (Sample.world_of (inr Sample.unavailable))).
    + vm_compute. reflexivity.
    + apply failure_status; [simpl; lia | reflexivity].
Defined.

(** C2: for every request object whose three fields are truthy (in
    particular non-empty strings), if the provider answers with a 2xx status
    and a payload whose first element has a ['translations'] list whose first
    element has ['text'] equal to [T], the view returns HTTP 200 with the
    body [{"translated_text": T}], after exactly the one call. *)
Theorem C2_success_returns_first_translation (cfg : config)
    (m : gmap string pyval) (w : world) (resp : Requests.response)
    (first result : gmap string pyval) (rest rest' : list pyval) (T : pyval) :
  validates (PyDict m) = true →
  network w (call_of cfg m) = inr resp →
  200 ≤ Requests.status_code resp < 300 →
  Requests.json_result resp = inr (PyList (PyDict first :: rest)) →
  first !! "translations" = Some (PyList (PyDict result :: rest')) →
  result !! "text" = Some T →
  translate_text cfg (PyDict m) w
    = (Return (Flask.Response 200 (PyDict {[ "translated_text" := T ]})),
       after_call w (call_of cfg m)).
Proof.
  intros Hv Hn Hst Hj Hfirst Hres.
  rewrite translate_text_accepted by done. cbn zeta.
  rewrite Hn. unfold answer, Requests.json.
  rewrite raise_for_status_passes, Hj by lia.
  by rewrite (first_translation_shape first result rest rest' T).
Qed.

Lemma C2_success_returns_first_translation_witness :
  translate_text Sample.cfg (PyDict Sample.hello)
    (Sample.world_of (inr (Sample.ok 200 Sample.bonjour)))
  = (Return (Flask.Response 200
               (PyDict {[ "translated_text" := PyStr "Bonjour" ]})),
     after_call (Sample.world_of (inr (Sample.ok 200 Sample.bonjour)))
       (call_of Sample.cfg Sample.hello)).
Proof.
  apply (C2_success_returns_first_translation Sample.cfg Sample.hello _
           (Sample.ok 200 Sample.bonjour)
           {[ "translations" := PyList [PyDict {[ "text" := PyStr "Bonjour" ]}] ]}
           {[ "text" := PyStr "Bonjour" ]} [] []).
  - vm_compute. reflexivity.
  - reflexivity.
  - simpl. lia.
  - reflexivity.
  - vm_compute. reflexivity.
  - vm_compute. reflexivity.
Defined.

(** C3, as stated, fails: a request body that is not a JSON object (here the
    empty list and [null]) has none of the three fields, yet the view does
    not answer 400: the first [data.get] raises [AttributeError] and no
    response is returned. *)
Lemma C3_non_object_body_not_answered_400 :
  (translate_text Sample.cfg (PyList [])
     (Sample.world_of (inr (Sample.ok 200 Sample.bonjour)))).1
    = Raise (Exc AttributeError "'list' object has no attribute 'get'")
  ∧ (translate_text Sample.cfg (PyList [])
       (Sample.world_of (inr (Sample.ok 200 Sample.bonjour)))).1
    ≠ Return missing_fields_response
  ∧ (translate_text Sample.cfg PyNone
       (Sample.world_of (inr (Sample.ok 200 Sample.bonjour)))).1
    = Raise (Exc AttributeError "'NoneType' object has no attribute 'get'")
  ∧ (translate_text Sample.cfg PyNone
       (Sample.world_of (inr (Sample.ok 200 Sample.bonjour)))).1
    ≠ Return missing_fields_response.
Proof. split_and!; by vm_compute. Qed.

(** C3 (amended): for every request body that is a JSON object in which
    [source_lang], [target_lang] or [text] is missing or is the empty string,
    the view returns HTTP 400 with the body
    [{"error": "Missing required fields"}] and leaves the world as it was: no
    call goes out and nothing is printed. *)
Theorem C3_missing_or_empty_field_rejected (cfg : config)
    (m : gmap string pyval) (w : world) :
  missing_or_empty m "source_lang" ∨ missing_or_empty m "target_lang"
    ∨ missing_or_empty m "text" →
  translate_text cfg (PyDict m) w
    = (Return (Flask.Response 400
                 (PyDict {[ "error" := PyStr "Missing required fields" ]})),
       w)
  ∧ sent (translate_text cfg (PyDict m) w).2 = sent w.
Proof.
  intros Hm.
  assert (validates (PyDict m) = false) as Hv.
  { destruct Hm as [Hk|[Hk|Hk]];
      [apply (falsy_field_rejects m "source_lang")
      |apply (falsy_field_rejects m "target_lang")
      |apply (falsy_field_rejects m "text")];
      try set_solver; unfold field; by destruct Hk as [->| ->]. }
  by rewrite translate_text_rejected.
Qed.

Lemma C3_missing_or_empty_field_rejected_witness :
  translate_text Sample.cfg (PyDict Sample.no_target)
    (Sample.world_of (inr (Sample.ok 200 Sample.bonjour)))
  = (Return (Flask.Response 400
               (PyDict {[ "error" := PyStr "Missing required fields" ]})),
     Sample.world_of (inr (Sample.ok 200 Sample.bonjour)))
  ∧ sent (translate_text Sample.cfg (PyDict Sample.no_target)
            (Sample.world_of (inr (Sample.ok 200 Sample.bonjour)))).2 = [].
Proof.
  apply (C3_missing_or_empty_field_rejected Sample.cfg Sample.no_target
           (Sample.world_of (inr (Sample.ok 200 Sample.bonjour)))).
  right. left. left. vm_compute. reflexivity.
Defined.

(** C4, as stated, fails: on the same accepted request, upstream failures
    of different kinds do not all get the same response.  A refused
    connection and a 503 are answered 500 "Translation failed"; a 200 answer
    with the payload [[]] and a 300 answer with the payload [[]] make
    [IndexError] leave the view, so no response is returned; and a 300 answer
    with a well-formed payload is answered 200. *)
Lemma C4_failure_responses_differ :
  (translate_text Sample.cfg (PyDict Sample.hello)
     (Sample.world_of (inl Sample.refused))).1
    = Return translation_failed_response
  ∧ (translate_text Sample.cfg (PyDict Sample.hello)
       (Sample.world_of (inr (Sample.ok 200 (PyList []))))).1
    = Raise (Exc IndexError "list index out of range")
  ∧ (translate_text Sample.cfg (PyDict Sample.hello)
       (Sample.world_of (inl Sample.refused))).1
    ≠ (translate_text Sample.cfg (PyDict Sample.hello)
         (Sample.world_of (inr (Sample.ok 200 (PyList []))))).1
  ∧ (translate_text Sample.cfg (PyDict Sample.hello)
       (Sample.world_of (inr Sample.unavailable))).1
    = Return translation_failed_response
  ∧ (translate_text Sample.cfg (PyDict Sample.hello)
       (Sample.world_of (inr (Sample.ok 300 (PyList []))))).1
    = Raise (Exc IndexError "list index out of range")
  ∧ (translate_text Sample.cfg (PyDict Sample.hello)
       (Sample.world_of (inr Sample.unavailable))).1
    ≠ (translate_text Sample.cfg (PyDict Sample.hello)
         (Sample.world_of (inr (Sample.ok 300 (PyList []))))).1
  ∧ (translate_text Sample.cfg (PyDict Sample.hello)
       (Sample.world_of (inr (Sample.ok 300 Sample.bonjour)))).1
    = Return (translated_response (PyStr "Bonjour"))
  ∧ (translate_text Sample.cfg (PyDict Sample.hello)
       (Sample.world_of (inr Sample.unavailable))).1
    ≠ (translate_text Sample.cfg (PyDict Sample.hello)
         (Sample.world_of (inr (Sample.ok 300 Sample.bonjour)))).1.
Proof. split_and!; by vm_compute. Qed.

(** C4 (amended): two runs of the view on the same accepted request whose
    upstream calls fail with exceptions of the [RequestException] family --
    any two such exceptions with any messages, any two 4xx or 5xx statuses,
    in any two worlds -- return the same response, HTTP 500 with
    [{"error": "Translation failed"}], a constant that holds nothing of
    either error; the error's text goes to standard output only. *)
Theorem C4_failure_response_hides_cause (cfg : config)
    (m : gmap string pyval) (w1 w2 : world) (e1 e2 : exc) :
  validates (PyDict m) = true →
  upstream_failure (network w1 (call_of cfg m)) e1 →
  upstream_failure (network w2 (call_of cfg m)) e2 →
  (translate_text cfg (PyDict m) w1).1 = (translate_text cfg (PyDict m) w2).1
  ∧ (translate_text cfg (PyDict m) w1).1
    = Return (Flask.Response 500
                (PyDict {[ "error" := PyStr "Translation failed" ]}))
  ∧ stdout (translate_text cfg (PyDict m) w1).2 = (stdout w1 ++ [str e1])%list
  ∧ stdout (translate_text cfg (PyDict m) w2).2 = (stdout w2 ++ [str e2])%list.
Proof.
  intros Hv Hf1 Hf2.
  by rewrite (translate_text_failure cfg m w1 e1),
    (translate_text_failure cfg m w2 e2).
Qed.

Lemma C4_failure_response_hides_cause_witness :
  (translate_text Sample.cfg (PyDict Sample.hello)
     (Sample.world_of (inl Sample.refused))).1
  = (translate_text Sample.cfg (PyDict Sample.hello)
       (Sample.world_of (inr Edge.unauthorized_hello))).1
  ∧ (translate_text Sample.cfg (PyDict Sample.hello)
       (Sample.world_of (inl Sample.refused))).1
    = Return (Flask.Response 500
                (PyDict {[ "error" := PyStr "Translation failed" ]}))
  ∧ stdout (translate_text Sample.cfg (PyDict Sample.hello)
              (Sample.world_of (inl Sample.refused))).2
    = ["Connection refused"]
  ∧ stdout (translate_text Sample.cfg (PyDict Sample.hello)
              (Sample.world_of (inr Edge.unauthorized_hello))).2
    = ["401 Client Error: Unauthorized for url: " +:+ Edge.hello_url].
Proof.
  apply (C4_failure_response_hides_cause Sample.cfg Sample.hello
           (Sample.world_of (inl Sample.refused))
           (Sample.world_of (inr Edge.unauthorized_hello))
           Sample.refused
           (Exc (Requests HTTPError)
              ("401 Client Error: Unauthorized for url: "
                 +:+ Edge.hello_url))).
  - vm_compute. reflexivity.
  - apply failure_transport. reflexivity.
  - apply failure_status; [simpl; lia | vm_compute; reflexivity].
Defined.

(** C5: whatever the request and the provider do, a response returned by the
    view has exactly one of two shapes: status 200 and a body
    [{"translated_text": t}] with no [error] field, or status 400 or 500 and
    a body [{"error": msg}] with no [translated_text] field.  When the view
    returns nothing, an exception that is not a [RequestException] left
    it. *)
Theorem C5_response_has_exactly_one_shape (cfg : config) (data : pyval)
    (w : world) :
  match (translate_text cfg data w).1 with
  | Return r =>
      (success_shape r ∧ ¬ error_shape r
       ∧ has_field r "translated_text" = true ∧ has_field r "error" = false
       ∧ Flask.status r = 200)
      ∨ (error_shape r ∧ ¬ success_shape r
         ∧ has_field r "error" = true ∧ has_field r "translated_text" = false
         ∧ (Flask.status r = 400 ∨ Flask.status r = 500))
  | Raise e => isinstance_RequestException e = false
  end.
Proof.
  destruct data as [| b | z | f | s | l | m];
    try (stop_at_get cfg w; unfold isinstance_RequestException;
         by rewrite Hcls).
  destruct (validates (PyDict m)) eqn:Hv.
  - destruct (translate_text_accepted_cases cfg m w Hv)
      as [[t ->]|[->|(e & -> & He)]]; [left|right|done].
    + destruct (shapes_of_translated t) as (Hs & Hne & Ht & He).
      by split_and!.
    + destruct (shapes_of_error 500 "Translation failed")
        as (He & Hns & Hf & Hnf).
      split_and!; [done..|by right].
  - rewrite translate_text_rejected by done. right.
    destruct (shapes_of_error 400 "Missing required fields")
      as (He & Hns & Hf & Hnf).
    split_and!; [done..|by left].
Qed.

(** C6: [ping] takes no argument and, in every world, returns HTTP 200 with
    the body [{"message": "Flask backend is working!"}], sends nothing and
    prints nothing; neither the provider nor the configuration enters. *)
Theorem C6_ping_fixed_response (w : world) :
  ping w
  = (Return (Flask.Response 200
               (PyDict {[ "message" := PyStr "Flask backend is working!" ]})),
     w).
Proof. reflexivity. Qed.

(** C7: for every request that passes validation, the one call the view
    sends is a POST to the provider's endpoint whose query parameters are
    exactly [api-version=3.0], [from=source_lang], [to=target_lang], whose
    headers carry the configured key and region (and the content type), and
    whose JSON body is exactly [[{"text": text}]]. *)
Theorem C7_upstream_call_as_specified (cfg : config) (m : gmap string pyval)
    (w : world) :
  validates (PyDict m) = true →
  sent (translate_text cfg (PyDict m) w).2
  = (sent w ++
     [ {| Requests.call_method := "POST";
          Requests.call_url :=
            "https://api.cognitive.microsofttranslator.com/translate";
          Requests.call_params :=
            {[ "api-version" := PyStr "3.0";
               "from" := field m "source_lang";
               "to" := field m "target_lang" ]};
          Requests.call_headers :=
            {[ "Ocp-Apim-Subscription-Key" := API_KEY cfg;
               "Ocp-Apim-Subscription-Region" := REGION cfg;
               "Content-type" := PyStr "application/json" ]};
          Requests.call_json := PyList [PyDict {[ "text" := field m "text" ]}]
       |} ])%list.
Proof. intros Hv. by rewrite translate_text_sent. Qed.

Lemma C7_upstream_call_as_specified_witness :
  sent (translate_text Sample.cfg (PyDict Sample.hello)
          (Sample.world_of (inl Sample.refused))).2
  = [ {| Requests.call_method := "POST";
         Requests.call_url :=
           "https://api.cognitive.microsofttranslator.com/translate";
         Requests.call_params :=
           {[ "api-version" := PyStr "3.0";
              "from" := PyStr "en";
              "to" := PyStr "fr" ]};
         Requests.call_headers :=
           {[ "Ocp-Apim-Subscription-Key" := PyStr "secret";
              "Ocp-Apim-Subscription-Region" := PyStr "ukwest";
              "Content-type" := PyStr "application/json" ]};
         Requests.call_json := PyList [PyDict {[ "text" := PyStr "Hello" ]}]
      |} ].
Proof.
  apply (C7_upstream_call_as_specified Sample.cfg Sample.hello
           (Sample.world_of (inl Sample.refused))).
  vm_compute. reflexivity.
Defined.

(** C8: every run of the view sends at most one call: exactly one when the
    request passes validation, none when it does not, whatever the provider
    answers. *)
Theorem C8_at_most_one_upstream_call (cfg : config) (data : pyval)
    (w : world) :
  sent (translate_text cfg data w).2 = (sent w ++ expected_calls cfg data)%list
  ∧ length (expected_calls cfg data) = (if validates data then 1 else 0)%nat.
Proof.
  destruct data as [| b | z | f | s | l | m];
    try (stop_at_get cfg w; by rewrite app_nil_r).
  unfold expected_calls. destruct (validates (PyDict m)) eqn:Hv.
  - by rewrite translate_text_sent.
  - rewrite translate_text_rejected by done. by rewrite app_nil_r.
Qed.

(** C9: for every request whose three fields are non-empty strings, whatever
    the strings are, the view does not answer "Missing required fields" and
    sends one call whose [from] and [to] parameters are the two codes as
    given. *)
Theorem C9_language_codes_not_validated (cfg : config)
    (m : gmap string pyval) (w : world) (source target text : string) :
  m !! "source_lang" = Some (PyStr source) →
  m !! "target_lang" = Some (PyStr target) →
  m !! "text" = Some (PyStr text) →
  source ≠ "" → target ≠ "" → text ≠ "" →
  (translate_text cfg (PyDict m) w).1 ≠ Return missing_fields_response
  ∧ ∃ c, sent (translate_text cfg (PyDict m) w).2 = (sent w ++ [c])%list
         ∧ Requests.call_params c !! "from" = Some (PyStr source)
         ∧ Requests.call_params c !! "to" = Some (PyStr target)
         ∧ Requests.call_json c = PyList [PyDict {[ "text" := PyStr text ]}].
Proof.
  intros Hs Ht Hx Hsn Htn Hxn.
  assert (validates (PyDict m) = true) as Hv.
  { unfold validates, Py.all, field. rewrite Hs, Ht, Hx.
    cbn [forallb from_option id].
    by rewrite !nonempty_string_truthy. }
  split.
  - destruct (translate_text_accepted_cases cfg m w Hv)
      as [[t ->]|[->|(e & -> & He)]]; done.
  - exists (call_of cfg m). split; [by apply translate_text_sent|].
    unfold call_of, upstream_call, field. rewrite Hs, Ht, Hx. done.
Qed.

Lemma C9_language_codes_not_validated_witness :
  (translate_text Sample.cfg (PyDict Sample.odd_codes)
     (Sample.world_of (inr Sample.unauthorized))).1
    ≠ Return missing_fields_response
  ∧ ∃ c, sent (translate_text Sample.cfg (PyDict Sample.odd_codes)
                 (Sample.world_of (inr Sample.unauthorized))).2 = [c]
         ∧ Requests.call_params c !! "from" = Some (PyStr "not a language")
         ∧ Requests.call_params c !! "to" = Some (PyStr "??")
         ∧ Requests.call_json c = PyList [PyDict {[ "text" := PyStr "Hello" ]}].
Proof.
  apply (C9_language_codes_not_validated Sample.cfg Sample.odd_codes
           (Sample.world_of (inr Sample.unauthorized))
           "not a language" "??" "Hello");
    first [ by vm_compute | discriminate ].
Defined.

(** C10: for every request object in which [source_lang], [target_lang] or
    [text] is present with a falsy value (the number 0, [false], an empty
    list, ...), the view returns HTTP 400 with the body
    [{"error": "Missing required fields"}] and leaves the world as it was:
    no call goes out. *)
Theorem C10_falsy_field_rejected (cfg : config) (m : gmap string pyval)
    (w : world) (k : string) (v : pyval) :
  k ∈ ["source_lang"; "target_lang"; "text"] →
  m !! k = Some v →
  truthy v = false →
  translate_text cfg (PyDict m) w
    = (Return (Flask.Response 400
                 (PyDict {[ "error" := PyStr "Missing required fields" ]})),
       w)
  ∧ sent (translate_text cfg (PyDict m) w).2 = sent w.
Proof.
  intros Hk Hm Hv.
  rewrite translate_text_rejected; [done|].
  apply (falsy_field_rejects m k Hk). unfold field. by rewrite Hm.
Qed.

Lemma C10_falsy_field_rejected_witness :
  translate_text Sample.cfg (PyDict Sample.zero_text)
    (Sample.world_of (inr (Sample.ok 200 Sample.bonjour)))
  = (Return (Flask.Response 400
               (PyDict {[ "error" := PyStr "Missing required fields" ]})),
     Sample.world_of (inr (Sample.ok 200 Sample.bonjour)))
  ∧ sent (translate_text Sample.cfg (PyDict Sample.zero_text)
            (Sample.world_of (inr (Sample.ok 200 Sample.bonjour)))).2 = [].
Proof.
  apply (C10_falsy_field_rejected Sample.cfg Sample.zero_text
           (Sample.world_of (inr (Sample.ok 200 Sample.bonjour)))
           "text" (PyInt 0)).
  - apply list_elem_of_In. simpl. tauto.
  - vm_compute. reflexivity.
  - reflexivity.
Defined.

(** ** Further properties of the views *)

Lemma getitem_int_error (v : pyval) (i : Z) (e : exc) :
  getitem_int v i = inl e →
  exc_cls e = IndexError ∨ exc_cls e = KeyError ∨ exc_cls e = TypeError.
Proof.
  destruct v; simpl; repeat case_match; intros [= <-]; auto.
Qed.

Lemma getitem_str_error (v : pyval) (k : string) (e : exc) :
  getitem_str v k = inl e →
  exc_cls e = IndexError ∨ exc_cls e = KeyError ∨ exc_cls e = TypeError.
Proof.
  destruct v; simpl; repeat case_match; intros [= <-]; auto.
Qed.

(** The subscripts of line 80 raise built-in exceptions only. *)
Lemma first_translation_error (payload : pyval) (e : exc) :
  first_translation payload = inl e →
  exc_cls e = IndexError ∨ exc_cls e = KeyError ∨ exc_cls e = TypeError.
Proof.
  unfold first_translation.
  destruct (getitem_int payload 0) as [e0|first] eqn:H0;
    [intros [= <-]; by eapply getitem_int_error|].
  destruct (getitem_str first "translations") as [e1|ts] eqn:H1;
    [intros [= <-]; by eapply getitem_str_error|].
  destruct (getitem_int ts 0) as [e2|result] eqn:H2;
    [intros [= <-]; by eapply getitem_int_error|].
  apply getitem_str_error.
Qed.

Lemma builtin_not_request_exception (e : exc) :
  exc_cls e = IndexError ∨ exc_cls e = KeyError ∨ exc_cls e = TypeError →
  isinstance_RequestException e = false.
Proof.
  unfold isinstance_RequestException. by intros [->|[->| ->]].
Qed.

Lemma raise_for_status_error (resp : Requests.response) (e : exc) :
  Requests.raise_for_status resp = inl e →
  400 ≤ Requests.status_code resp < 600
  ∧ isinstance_RequestException e = true.
Proof.
  unfold Requests.raise_for_status.
  repeat case_match; intros [= <-]; split; try done; lia.
Qed.

Lemma raise_for_status_ok (resp : Requests.response) :
  Requests.raise_for_status resp = inr () →
  ¬ (400 ≤ Requests.status_code resp < 600).
Proof.
  unfold Requests.raise_for_status.
  repeat case_match; intros [= ]; lia.
Qed.

(** What a value of the [try] body says about the provider's answer. *)
Lemma answer_value (r : exc + Requests.response) (t : pyval) :
  answer r = inr t →
  ∃ resp payload,
    r = inr resp
    ∧ ¬ (400 ≤ Requests.status_code resp < 600)
    ∧ Requests.json_result resp = inr payload
    ∧ first_translation payload = inr t.
Proof.
  destruct r as [e|resp]; [done|]. unfold answer, Requests.json.
  destruct (Requests.raise_for_status resp) as [e|[]] eqn:Hr; [done|].
  destruct (Requests.json_result resp) as [e|payload] eqn:Hj; [done|].
  intros Ht. exists resp, payload. split_and!; try done.
  by apply raise_for_status_ok.
Qed.

(** A caught exception of the [try] body is an upstream failure. *)
Lemma answer_caught (r : exc + Requests.response) (e : exc) :
  answer r = inl e →
  isinstance_RequestException e = true →
  upstream_failure r e.
Proof.
  destruct r as [e0|resp]; [intros [= ->]; by constructor|].
  unfold answer, Requests.json.
  destruct (Requests.raise_for_status resp) as [e0|[]] eqn:Hr.
  - intros [= ->] _. apply failure_status; [|done].
    by apply raise_for_status_error in Hr as [? _].
  - apply raise_for_status_ok in Hr.
    destruct (Requests.json_result resp) as [e0|payload] eqn:Hj.
    + intros [= ->] He. by apply failure_body.
    + intros Hf He. apply first_translation_error in Hf.
      apply builtin_not_request_exception in Hf. congruence.
Qed.

Lemma translate_text_escapes (cfg : config) (m : gmap string pyval)
    (w : world) (e : exc) :
  validates (PyDict m) = true →
  answer (network w (call_of cfg m)) = inl e →
  isinstance_RequestException e = false →
  translate_text cfg (PyDict m) w = (Raise e, after_call w (call_of cfg m)).
Proof.
  intros Hv Ha He. rewrite translate_text_accepted by done. cbn zeta.
  by rewrite Ha, He.
Qed.

Lemma validates_false_field (m : gmap string pyval) :
  validates (PyDict m) = false →
  ∃ k, k ∈ required_keys ∧ truthy (field m k) = false.
Proof.
  unfold validates, Py.all, required_keys. cbn [forallb].
  destruct (truthy (field m "source_lang")) eqn:Hs;
    [|intros _; exists "source_lang"; split; [set_solver|done]].
  destruct (truthy (field m "target_lang")) eqn:Ht;
    [|intros _; exists "target_lang"; split; [set_solver|done]].
  destruct (truthy (field m "text")) eqn:Hx; [done|].
  intros _; exists "text"; split; [set_solver|done].
Qed.

Lemma falsy_field_iff (m : gmap string pyval) (k : string) :
  truthy (field m k) = false ↔ missing_or_falsy m k.
Proof.
  unfold field, missing_or_falsy. destruct (m !! k) as [v|]; simpl.
  - split; [intros Hv; right; by exists v|].
    intros [|(v' & [= <-] & Hv)]; done.
  - split; [by left|done].
Qed.

(** X1: a request body that is not a JSON object ([null], a number, a
    string, a list, ...) makes the view raise [AttributeError] at the first
    [data.get]; no response is returned, no call goes out and nothing is
    printed. *)
Theorem X1_non_object_body_raises (cfg : config) (data : pyval) (w : world) :
  (∀ m, data ≠ PyDict m) →
  ∃ e, (translate_text cfg data w).1 = Raise e
       ∧ exc_cls e = AttributeError
       ∧ sent (translate_text cfg data w).2 = sent w
       ∧ stdout (translate_text cfg data w).2 = stdout w.
Proof.
  intros Hnd. destruct (translate_text_not_dict cfg data w Hnd) as (e & -> & He).
  by exists e.
Qed.

Lemma X1_non_object_body_raises_witness :
  ∃ e, (translate_text Sample.cfg (PyList [])
          (Sample.world_of (inr (Sample.ok 200 Sample.bonjour)))).1 = Raise e
       ∧ exc_cls e = AttributeError
       ∧ sent (translate_text Sample.cfg (PyList [])
                 (Sample.world_of (inr (Sample.ok 200 Sample.bonjour)))).2 = []
       ∧ stdout (translate_text Sample.cfg (PyList [])
                   (Sample.world_of (inr (Sample.ok 200 Sample.bonjour)))).2
         = [].
Proof.
  apply (X1_non_object_body_raises Sample.cfg (PyList [])
           (Sample.world_of (inr (Sample.ok 200 Sample.bonjour)))).
  intros m. discriminate.
Defined.

(** X2: on a request object, the view answers 400 "Missing required fields"
    exactly when one of the three required fields is missing or holds a falsy
    value; in every other case the answer is not that one. *)
Theorem X2_rejected_iff_field_missing_or_falsy (cfg : config)
    (m : gmap string pyval) (w : world) :
  (translate_text cfg (PyDict m) w).1 = Return missing_fields_response
  ↔ ∃ k, k ∈ required_keys ∧ missing_or_falsy m k.
Proof.
  split.
  - intros Hrun. destruct (validates (PyDict m)) eqn:Hv.
    + destruct (translate_text_accepted_cases cfg m w Hv)
        as [[t Ht]|[Ht|(e & Ht & He)]]; by rewrite Ht in Hrun.
    + destruct (validates_false_field m Hv) as (k & Hk & Hf).
      exists k. split; [done|]. by apply falsy_field_iff.
  - intros (k & Hk & Hf). apply falsy_field_iff in Hf.
    by rewrite translate_text_rejected by by eapply falsy_field_rejects.
Qed.

(** X3: the view reads the three required keys only: two request objects
    that agree on them, whatever else they hold, get the same run (same
    response, same call, same output). *)
Theorem X3_other_fields_ignored (cfg : config) (m m' : gmap string pyval)
    (w : world) :
  (∀ k, k ∈ required_keys → m !! k = m' !! k) →
  translate_text cfg (PyDict m) w = translate_text cfg (PyDict m') w.
Proof.
  intros Hk. unfold translate_text, mbind, eff_bind, Eff.bind.
  rewrite !get_dict. unfold field.
  by rewrite (Hk "source_lang"), (Hk "target_lang"), (Hk "text")
    by (unfold required_keys; set_solver).
Qed.

Lemma X3_other_fields_ignored_witness :
  translate_text Sample.cfg (PyDict Edge.hello_with_note)
    (Sample.world_of (inr (Sample.ok 200 Sample.bonjour)))
  = translate_text Sample.cfg (PyDict Sample.hello)
      (Sample.world_of (inr (Sample.ok 200 Sample.bonjour))).
Proof.
  apply (X3_other_fields_ignored Sample.cfg Edge.hello_with_note Sample.hello).
  intros k Hk. apply list_elem_of_In in Hk. simpl in Hk.
  destruct Hk as [<-|[<-|[<-|[]]]]; vm_compute; reflexivity.
Defined.

(** X4: when the provider's answer passes [raise_for_status] and [.json()]
    but one of the subscripts [[0]["translations"][0]["text"]] fails, the
    exception is an [IndexError], [KeyError] or [TypeError]; it is not caught:
    the view returns no response, after its one call and without printing. *)
Theorem X4_payload_shape_error_escapes (cfg : config)
    (m : gmap string pyval) (w : world) (resp : Requests.response)
    (payload : pyval) (e : exc) :
  validates (PyDict m) = true →
  network w (call_of cfg m) = inr resp →
  ¬ (400 ≤ Requests.status_code resp < 600) →
  Requests.json_result resp = inr payload →
  first_translation payload = inl e →
  translate_text cfg (PyDict m) w = (Raise e, after_call w (call_of cfg m))
  ∧ (exc_cls e = IndexError ∨ exc_cls e = KeyError ∨ exc_cls e = TypeError).
Proof.
  intros Hv Hn Hst Hj Hf.
  pose proof (first_translation_error payload e Hf) as Hc.
  split; [|done]. apply translate_text_escapes; [done| |].
  - rewrite Hn. unfold answer, Requests.json.
    by rewrite raise_for_status_passes, Hj.
  - by apply builtin_not_request_exception.
Qed.

Lemma X4_payload_shape_error_escapes_witness :
  translate_text Sample.cfg (PyDict Sample.hello)
    (Sample.world_of (inr (Sample.ok 200 (PyStr "Bonjour"))))
  = (Raise (Exc TypeError "string indices must be integers, not 'str'"),
     after_call (Sample.world_of (inr (Sample.ok 200 (PyStr "Bonjour"))))
       (call_of Sample.cfg Sample.hello)).
Proof.
  apply (X4_payload_shape_error_escapes Sample.cfg Sample.hello
           (Sample.world_of (inr (Sample.ok 200 (PyStr "Bonjour"))))
           (Sample.ok 200 (PyStr "Bonjour")) (PyStr "Bonjour")).
  - vm_compute. reflexivity.
  - reflexivity.
  - simpl. lia.
  - reflexivity.
  - reflexivity.
Defined.

(** X5: an exception raised by [requests.post] or by [.json()] that is not a
    [RequestException] is not caught either: it leaves the view after the one
    call, and nothing is printed. *)
Theorem X5_other_exception_escapes (cfg : config) (m : gmap string pyval)
    (w : world) (e : exc) :
  validates (PyDict m) = true →
  isinstance_RequestException e = false →
  network w (call_of cfg m) = inl e
  ∨ (∃ resp, network w (call_of cfg m) = inr resp
             ∧ ¬ (400 ≤ Requests.status_code resp < 600)
             ∧ Requests.json_result resp = inl e) →
  translate_text cfg (PyDict m) w = (Raise e, after_call w (call_of cfg m)).
Proof.
  intros Hv He [Hn|(resp & Hn & Hst & Hj)];
    apply translate_text_escapes; try done; rewrite Hn; [done|].
  unfold answer, Requests.json. by rewrite raise_for_status_passes, Hj.
Qed.

Lemma X5_other_exception_escapes_witness :
  translate_text Sample.cfg (PyDict Sample.hello)
    (Sample.world_of (inr Edge.not_json))
  = (Raise (Exc ValueError "Expecting value: line 1 column 1 (char 0)"),
     after_call (Sample.world_of (inr Edge.not_json))
       (call_of Sample.cfg Sample.hello)).
Proof.
  apply (X5_other_exception_escapes Sample.cfg Sample.hello
           (Sample.world_of (inr Edge.not_json))).
  - vm_compute. reflexivity.
  - reflexivity.
  - right. exists Edge.not_json. split; [reflexivity|].
    split; [simpl; lia | reflexivity].
Defined.

(** X6: the view answers 500 only for a request object that passed
    validation and whose upstream call failed with a [RequestException]; the
    response is then the fixed "Translation failed" one and the exception's
    text is the one line printed. *)
Theorem X6_500_only_after_upstream_failure (cfg : config) (data : pyval)
    (w : world) (r : Flask.response) :
  (translate_text cfg data w).1 = Return r →
  Flask.status r = 500 →
  ∃ m e, data = PyDict m
         ∧ validates data = true
         ∧ upstream_failure (network w (call_of cfg m)) e
         ∧ r = translation_failed_response
         ∧ stdout (translate_text cfg data w).2 = (stdout w ++ [str e])%list.
Proof.
  destruct data as [| b | z | f | s | l | m];
    try (stop_at_get cfg w; discriminate).
  destruct (validates (PyDict m)) eqn:Hv;
    [|rewrite translate_text_rejected by done; intros [= <-]; discriminate].
  rewrite translate_text_accepted by done. cbn zeta.
  destruct (answer _) as [e|t] eqn:Ha; [|intros [= <-]; discriminate].
  destruct (isinstance_RequestException e) eqn:He; [|discriminate].
  intros [= <-] _. exists m, e. split_and!; try done.
  by apply answer_caught.
Qed.

Lemma X6_500_only_after_upstream_failure_witness :
  ∃ m e, PyDict Sample.hello = PyDict m
         ∧ validates (PyDict Sample.hello) = true
         ∧ upstream_failure
             (network (Sample.world_of (inl Sample.refused))
                (call_of Sample.cfg m)) e
         ∧ translation_failed_response = translation_failed_response
         ∧ stdout (translate_text Sample.cfg (PyDict Sample.hello)
                     (Sample.world_of (inl Sample.refused))).2
           = ([] ++ [str e])%list.
Proof.
  apply (X6_500_only_after_upstream_failure Sample.cfg (PyDict Sample.hello)
           (Sample.world_of (inl Sample.refused))
           translation_failed_response).
  - vm_compute. reflexivity.
  - reflexivity.
Defined.

(** X7: the status of the provider's answer is looked at by
    [raise_for_status] only: any status outside 400-599, 2xx or not, with a
    payload of the expected shape is answered with 200 and the first
    translation's text. *)
Theorem X7_status_outside_4xx_5xx_is_success (cfg : config)
    (m : gmap string pyval) (w : world) (resp : Requests.response)
    (payload T : pyval) :
  validates (PyDict m) = true →
  network w (call_of cfg m) = inr resp →
  ¬ (400 ≤ Requests.status_code resp < 600) →
  Requests.json_result resp = inr payload →
  first_translation payload = inr T →
  translate_text cfg (PyDict m) w
    = (Return (Flask.Response 200 (PyDict {[ "translated_text" := T ]})),
       after_call w (call_of cfg m)).
Proof.
  intros Hv Hn Hst Hj Hf. rewrite translate_text_accepted by done. cbn zeta.
  rewrite Hn. unfold answer, Requests.json.
  by rewrite raise_for_status_passes, Hj, Hf.
Qed.

Lemma X7_status_outside_4xx_5xx_is_success_witness :
  translate_text Sample.cfg (PyDict Sample.hello)
    (Sample.world_of (inr (Sample.ok 304 Sample.bonjour)))
  = (Return (Flask.Response 200
               (PyDict {[ "translated_text" := PyStr "Bonjour" ]})),
     after_call (Sample.world_of (inr (Sample.ok 304 Sample.bonjour)))
       (call_of Sample.cfg Sample.hello)).
Proof.
  apply (X7_status_outside_4xx_5xx_is_success Sample.cfg Sample.hello
           (Sample.world_of (inr (Sample.ok 304 Sample.bonjour)))
           (Sample.ok 304 Sample.bonjour) Sample.bonjour (PyStr "Bonjour")).
  - vm_compute. reflexivity.
  - reflexivity.
  - simpl. lia.
  - reflexivity.
  - vm_compute. reflexivity.
Defined.

(** X8: a 200 response of the view always carries what the provider sent:
    it is returned only for a request object that passed validation, whose
    call was answered with a status outside 400-599 and a payload whose
    [[0]["translations"][0]["text"]] is the returned [translated_text]. *)
Theorem X8_200_only_with_upstream_translation (cfg : config) (data : pyval)
    (w : world) (r : Flask.response) :
  (translate_text cfg data w).1 = Return r →
  Flask.status r = 200 →
  ∃ m resp payload t,
    data = PyDict m
    ∧ validates data = true
    ∧ network w (call_of cfg m) = inr resp
    ∧ ¬ (400 ≤ Requests.status_code resp < 600)
    ∧ Requests.json_result resp = inr payload
    ∧ first_translation payload = inr t
    ∧ r = Flask.Response 200 (PyDict {[ "translated_text" := t ]}).
Proof.
  destruct data as [| b | z | f | s | l | m];
    try (stop_at_get cfg w; discriminate).
  destruct (validates (PyDict m)) eqn:Hv;
    [|rewrite translate_text_rejected by done; intros [= <-]; discriminate].
  rewrite translate_text_accepted by done. cbn zeta.
  destruct (answer _) as [e|t] eqn:Ha.
  - destruct (isinstance_RequestException e); [|discriminate].
    intros [= <-]. discriminate.
  - intros [= <-] _.
    destruct (answer_value _ _ Ha) as (resp & payload & Hn & Hst & Hj & Hf).
    by exists m, resp, payload, t.
Qed.

Lemma X8_200_only_with_upstream_translation_witness :
  ∃ m resp payload t,
    PyDict Sample.hello = PyDict m
    ∧ validates (PyDict Sample.hello) = true
    ∧ network (Sample.world_of (inr (Sample.ok 200 Sample.bonjour)))
        (call_of Sample.cfg m) = inr resp
    ∧ ¬ (400 ≤ Requests.status_code resp < 600)
    ∧ Requests.json_result resp = inr payload
    ∧ first_translation payload = inr t
    ∧ translated_response (PyStr "Bonjour")
      = Flask.Response 200 (PyDict {[ "translated_text" := t ]}).
Proof.
  apply (X8_200_only_with_upstream_translation Sample.cfg
           (PyDict Sample.hello)
           (Sample.world_of (inr (Sample.ok 200 Sample.bonjour)))
           (translated_response (PyStr "Bonjour"))).
  - vm_compute. reflexivity.
  - reflexivity.
Defined.

(** X9: the view prints exactly one line when it answers 500 and nothing in
    every other run: not on success, not on a rejected request, and not when
    an exception leaves it. *)
Theorem X9_prints_only_with_500 (cfg : config) (data : pyval) (w : world) :
  match (translate_text cfg data w).1 with
  | Return r =>
      if Flask.status r =? 500
      then ∃ line, stdout (translate_text cfg data w).2
                   = (stdout w ++ [line])%list
      else stdout (translate_text cfg data w).2 = stdout w
  | Raise _ => stdout (translate_text cfg data w).2 = stdout w
  end.
Proof.
  destruct data as [| b | z | f | s | l | m]; try by stop_at_get cfg w.
  destruct (validates (PyDict m)) eqn:Hv;
    [|by rewrite translate_text_rejected].
  rewrite translate_text_accepted by done. cbn zeta.
  destruct (answer _) as [e|t]; [|done].
  destruct (isinstance_RequestException e); [|done].
  by exists (str e).
Qed.

(** X10: the API key is not checked locally.  When
    [MICROSOFT_TRANSLATE_API_KEY] is not in the environment, [API_KEY] is
    [None], and a request that passes validation is still sent upstream, with
    [None] as the value of the subscription-key header. *)
Theorem X10_missing_api_key_still_calls (environ : gmap string string)
    (m : gmap string pyval) (w : world) :
  environ !! "MICROSOFT_TRANSLATE_API_KEY" = None →
  validates (PyDict m) = true →
  (translate_text (load_config environ) (PyDict m) w).1
    ≠ Return missing_fields_response
  ∧ ∃ c, sent (translate_text (load_config environ) (PyDict m) w).2
         = (sent w ++ [c])%list
         ∧ Requests.call_headers c !! "Ocp-Apim-Subscription-Key"
           = Some PyNone.
Proof.
  intros Hk Hv. split.
  - destruct (translate_text_accepted_cases (load_config environ) m w Hv)
      as [[t ->]|[->|(e & -> & He)]]; done.
  - exists (call_of (load_config environ) m).
    split; [by apply translate_text_sent|].
    unfold call_of, upstream_call, load_config, getenv. cbn [API_KEY].
    by rewrite Hk.
Qed.

Lemma X10_missing_api_key_still_calls_witness :
  (translate_text (load_config Edge.no_key_environ) (PyDict Sample.hello)
     (Sample.world_of (inr Sample.unauthorized))).1
    ≠ Return missing_fields_response
  ∧ ∃ c, sent (translate_text (load_config Edge.no_key_environ)
                 (PyDict Sample.hello)
                 (Sample.world_of (inr Sample.unauthorized))).2 = [c]
         ∧ Requests.call_headers c !! "Ocp-Apim-Subscription-Key"
           = Some PyNone.
Proof.
  apply (X10_missing_api_key_still_calls Edge.no_key_environ Sample.hello
           (Sample.world_of (inr Sample.unauthorized))).
  - vm_compute. reflexivity.
  - vm_compute. reflexivity.
Defined.

(** X11: the region header of the call is the value of
    [MICROSOFT_TRANSLATE_REGION] whenever the variable is set, the empty
    string included, and ["ukwest"] only when it is not set. *)
Theorem X11_region_header_from_environment (environ : gmap string string)
    (m : gmap string pyval) (w : world) :
  validates (PyDict m) = true →
  ∃ c, sent (translate_text (load_config environ) (PyDict m) w).2
       = (sent w ++ [c])%list
       ∧ Requests.call_headers c !! "Ocp-Apim-Subscription-Region"
         = Some (PyStr match environ !! "MICROSOFT_TRANSLATE_REGION" with
                       | Some region => region
                       | None => "ukwest"
                       end).
Proof.
  intros Hv. exists (call_of (load_config environ) m).
  split; [by apply translate_text_sent|].
  unfold call_of, upstream_call, load_config, getenv_default. cbn [REGION].
  by destruct (environ !! "MICROSOFT_TRANSLATE_REGION").
Qed.

Lemma X11_region_header_from_environment_witness :
  ∃ c, sent (translate_text (load_config Edge.no_key_environ)
               (PyDict Sample.hello)
               (Sample.world_of (inl Sample.refused))).2 = [c]
       ∧ Requests.call_headers c !! "Ocp-Apim-Subscription-Region"
         = Some (PyStr "").
Proof.
  apply (X11_region_header_from_environment Edge.no_key_environ Sample.hello
           (Sample.world_of (inl Sample.refused))).
  vm_compute. reflexivity.
Defined.

(** X12: validation looks at truth values, not at types: three required
    fields holding any truthy JSON values (a number, [true], a list, ...)
    pass, and the values go upstream as they are, in [from], [to] and the
    body's [text]. *)
Theorem X12_truthy_values_forwarded_untyped (cfg : config)
    (m : gmap string pyval) (w : world) (source target text : pyval) :
  m !! "source_lang" = Some source →
  m !! "target_lang" = Some target →
  m !! "text" = Some text →
  truthy source = true → truthy target = true → truthy text = true →
  (translate_text cfg (PyDict m) w).1 ≠ Return missing_fields_response
  ∧ ∃ c, sent (translate_text cfg (PyDict m) w).2 = (sent w ++ [c])%list
         ∧ Requests.call_params c !! "from" = Some source
         ∧ Requests.call_params c !! "to" = Some target
         ∧ Requests.call_json c = PyList [PyDict {[ "text" := text ]}].
Proof.
  intros Hs Ht Hx Hst Htt Hxt.
  assert (validates (PyDict m) = true) as Hv.
  { unfold validates, Py.all, field. rewrite Hs, Ht, Hx.
    cbn [forallb from_option id]. by rewrite Hst, Htt, Hxt. }
  split.
  - destruct (translate_text_accepted_cases cfg m w Hv)
      as [[t ->]|[->|(e & -> & He)]]; done.
  - exists (call_of cfg m). split; [by apply translate_text_sent|].
    unfold call_of, upstream_call, field. by rewrite Hs, Ht, Hx.
Qed.

Lemma X12_truthy_values_forwarded_untyped_witness :
  (translate_text Sample.cfg (PyDict Edge.untyped)
     (Sample.world_of (inl Sample.refused))).1
    ≠ Return missing_fields_response
  ∧ ∃ c, sent (translate_text Sample.cfg (PyDict Edge.untyped)
                 (Sample.world_of (inl Sample.refused))).2 = [c]
         ∧ Requests.call_params c !! "from" = Some (PyList [PyStr "en"])
         ∧ Requests.call_params c !! "to" = Some (PyBool true)
         ∧ Requests.call_json c = PyList [PyDict {[ "text" := PyInt 5 ]}].
Proof.
  apply (X12_truthy_values_forwarded_untyped Sample.cfg Edge.untyped
           (Sample.world_of (inl Sample.refused))
           (PyList [PyStr "en"]) (PyBool true) (PyInt 5));
    by vm_compute.
Defined.
